(** * Transaction lifecycle, transaction manager and block tracker

    A shallow embedding of three modules of the request manager package:

    - [transactionLifecycle.js]: the per-transaction record with its six
      transition methods and the helper [_checkPrecondition];
    - [transactionManager.js]: [send], [_submitTransaction], the lifecycle
      event handlers, [_signIfNecessary], [_getWallet] and
      [_isSignedTransaction];
    - the block tracker: its constructor and [_initializeSubscription].

    JavaScript values are an inductive type, exceptions are completions, and
    a method that mutates [this] is a function from the object's state to a
    completion and the state it leaves behind (a write made before a [throw]
    stays made). *)

From Stdlib Require Import String Ascii List ZArith Bool Lia DecimalString.
Import ListNotations.
Open Scope string_scope.

(** ** JavaScript values *)

Module JS.

Set Warnings "-register-all".

Inductive ErrorKind := KError | KTypeError | KReferenceError.

(** Numbers are the integers a double holds exactly (confirmation counts,
    wallet indices, heights), strings are sequences of ASCII characters
    (addresses, hashes, stage names), and functions are opaque objects
    known by name, none of whose own properties is modelled. *)
Inductive Value :=
| JUndefined
| JNull
| JBool (b : bool)
| JNum (n : Z)
| JStr (s : string)
| JObj (props : list (string * Value))
| JArr (elems : list Value)
| JFun (name : string)
| JErr (kind : ErrorKind) (message : string).

(** The character U+0022. *)
Definition dquote : string := String "034"%char EmptyString.

(** [ToBoolean]. *)
Definition truthy (v : Value) : bool :=
  match v with
  | JUndefined | JNull => false
  | JBool b => b
  | JNum n => negb (n =? 0)%Z
  | JStr s => negb (s =? EmptyString)
  | JObj _ | JArr _ | JFun _ | JErr _ _ => true
  end.

Definition kind_name (k : ErrorKind) : string :=
  match k with
  | KError => "Error"
  | KTypeError => "TypeError"
  | KReferenceError => "ReferenceError"
  end.

Definition string_of_Z (n : Z) : string :=
  NilZero.string_of_int (Z.to_int n).

Fixpoint join (sep : string) (parts : list string) : string :=
  match parts with
  | [] => EmptyString
  | [p] => p
  | p :: rest => p ++ sep ++ join sep rest
  end.

(** [ToString], as used by template literals and computed property keys.
    An ordinary object converts through the [toString] it inherits; an
    object with a [toString] of its own is outside this conversion, and the
    statements that convert an arbitrary object say so. *)
Fixpoint ToString (v : Value) : string :=
  match v with
  | JUndefined => "undefined"
  | JNull => "null"
  | JBool true => "true"
  | JBool false => "false"
  | JNum n => string_of_Z n
  | JStr s => s
  | JObj _ => "[object Object]"
  | JArr elems =>
      join "," (map (fun e => match e with
                              | JUndefined | JNull => EmptyString
                              | _ => ToString e
                              end) elems)
  | JFun name => "function " ++ name ++ "() { [native code] }"
  | JErr k m => kind_name k ++ ": " ++ m
  end.

(** [elems.join(sep)]: [undefined] and [null] elements print as nothing. *)
Definition array_join (sep : string) (elems : list Value) : string :=
  join sep (map (fun e => match e with
                          | JUndefined | JNull => EmptyString
                          | _ => ToString e
                          end) elems).

(** [typeof v === "string"] and [Array.isArray(v)]. *)
Definition is_string (v : Value) : bool :=
  match v with JStr _ => true | _ => false end.

Definition isArray (v : Value) : bool :=
  match v with JArr _ => true | _ => false end.

(** [a !== b] is only ever applied to strings in these modules; on other
    primitives it is the evident comparison, and two object operands are
    distinct unless they are the same object, which a value cannot tell. *)
Definition strict_eq (a b : Value) : bool :=
  match a, b with
  | JUndefined, JUndefined => true
  | JNull, JNull => true
  | JBool x, JBool y => Bool.eqb x y
  | JNum x, JNum y => (x =? y)%Z
  | JStr x, JStr y => (x =? y)
  | _, _ => false
  end.

(** ** Completions *)

Inductive Completion (A : Type) :=
| Normal (a : A)
| Throw (e : Value).
Arguments Normal {A} a.
Arguments Throw {A} e.

Definition cbind {A B} (c : Completion A) (k : A -> Completion B)
  : Completion B :=
  match c with
  | Normal a => k a
  | Throw e => Throw e
  end.

(** Reading an identifier that neither the module nor the host environment
    declares. *)
Definition unbound {A} (identifier : string) : Completion A :=
  Throw (JErr KReferenceError (identifier ++ " is not defined")).

(** ** Property access *)

Fixpoint lookup (key : string) (props : list (string * Value))
  : option Value :=
  match props with
  | [] => None
  | (k, v) :: rest => if k =? key then Some v else lookup key rest
  end.

(** The methods every ordinary object inherits from [Object.prototype]. *)
Definition Object_prototype : list string :=
  [ "constructor"; "__defineGetter__"; "__defineSetter__";
    "hasOwnProperty"; "__lookupGetter__"; "__lookupSetter__";
    "isPrototypeOf"; "propertyIsEnumerable"; "toString"; "valueOf";
    "toLocaleString" ].

Definition inherited (names : list string) (key : string) : Value :=
  if existsb (String.eqb key) names then JFun key else JUndefined.

(** [Object.prototype] itself, which [__proto__] reads. *)
Definition Object_prototype_object : Value :=
  JObj (map (fun name => (name, JFun name)) Object_prototype).

(** What [o[key]] reads from an ordinary object with the given own
    properties. *)
Definition field (props : list (string * Value)) (key : string) : Value :=
  match lookup key props with
  | Some x => x
  | None => if key =? "__proto__" then Object_prototype_object
            else inherited Object_prototype key
  end.

(** The canonical array index a key denotes, searched below [bound]. *)
Fixpoint index_of_key (key : string) (bound : nat) : option nat :=
  match bound with
  | O => None
  | S i => if string_of_Z (Z.of_nat i) =? key then Some i
           else index_of_key key i
  end.

(** [v[key]] for a key already converted to a string. Reading a property
    of [undefined] or [null] throws; the members of [String.prototype]
    and [Array.prototype] other than [length] are not data this code
    reads and are left out. *)
Definition get (v : Value) (key : string) : Completion Value :=
  match v with
  | JUndefined | JNull =>
      Throw (JErr KTypeError
               ("Cannot read properties of " ++ ToString v
                ++ " (reading '" ++ key ++ "')"))
  | JObj props => Normal (field props key)
  | JArr elems =>
      Normal (if key =? "length" then JNum (Z.of_nat (length elems))
              else match index_of_key key (length elems) with
                   | Some i => nth i elems JUndefined
                   | None => JUndefined
                   end)
  | JStr s =>
      Normal (if key =? "length" then JNum (Z.of_nat (String.length s))
              else match index_of_key key (String.length s) with
                   | Some i => JStr (substring i 1 s)
                   | None => JUndefined
                   end)
  | JErr k m =>
      Normal (if key =? "message" then JStr m
              else if key =? "name" then JStr (kind_name k)
              else JUndefined)
  | JBool _ | JNum _ | JFun _ => Normal JUndefined
  end.

(** [v[k]] with a computed key. *)
Definition get_computed (v k : Value) : Completion Value :=
  get v (ToString k).

(** [String.prototype.toLowerCase] on strings of ASCII characters. *)
Definition lower_ascii (c : ascii) : ascii :=
  let n := nat_of_ascii c in
  if andb (65 <=? n)%nat (n <=? 90)%nat then ascii_of_nat (n + 32) else c.

Fixpoint lower (s : string) : string :=
  match s with
  | EmptyString => EmptyString
  | String c rest => String (lower_ascii c) (lower rest)
  end.

(** [v.toLowerCase()]: only strings carry the method. *)
Definition toLowerCase (v : Value) : Completion Value :=
  match v with
  | JStr s => Normal (JStr (lower s))
  | JUndefined | JNull =>
      Throw (JErr KTypeError
               ("Cannot read properties of " ++ ToString v
                ++ " (reading 'toLowerCase')"))
  | _ => Throw (JErr KTypeError "from.toLowerCase is not a function")
  end.

(** The strings [lower] is exact on. *)
Fixpoint ascii_only (s : string) : bool :=
  match s with
  | EmptyString => true
  | String c rest => andb (nat_of_ascii c <? 128)%nat (ascii_only rest)
  end.

End JS.
Import JS.

(** ** Methods as state transformers with exceptions *)

Definition M (S A : Type) : Type := S -> Completion A * S.

Definition ret {S A} (a : A) : M S A := fun s => (Normal a, s).

Definition bind {S A B} (c : M S A) (k : A -> M S B) : M S B :=
  fun s => match c s with
           | (Normal a, s') => k a s'
           | (Throw e, s') => (Throw e, s')
           end.

Definition throw {S A} (e : Value) : M S A := fun s => (Throw e, s).

Definition gets {S A} (f : S -> A) : M S A := fun s => (Normal (f s), s).

Definition modify {S} (f : S -> S) : M S unit := fun s => (Normal tt, f s).

Definition lift {S A} (c : Completion A) : M S A := fun s => (c, s).

(** [try { body } catch (err) { handler }]. *)
Definition try_catch {S A} (body : M S A) (handler : Value -> M S A)
  : M S A :=
  fun s => match body s with
           | (Normal a, s') => (Normal a, s')
           | (Throw e, s') => handler e s'
           end.

Declare Scope js_scope.
Delimit Scope js_scope with js.
Notation "x <- c ;; k" := (bind c (fun x => k))
  (at level 61, c at next level, right associativity) : js_scope.
Notation "c ;; k" := (bind c (fun _ => k))
  (at level 61, right associativity) : js_scope.
Notation "'let*' x := c 'in' k" := (cbind c (fun x => k))
  (at level 61, x name, c at next level, right associativity) : js_scope.
Open Scope js_scope.

(** ** transactionLifecycle.js *)

Module TransactionLifecycle.

(** The fields of one lifecycle object. [_state] is the property the
    transition methods write; nothing creates it before the first write, so
    it reads [undefined] until then. [emitted] lists the calls to [emit],
    oldest first, each with its arguments after the event name. *)
Record state := mk {
  _transaction : Value;
  _stage : Value;
  _receipt : Value;
  _confirmationsRequired : Value;
  _state : Value;
  emitted : list (string * list Value)
}.

Definition constructor (transaction confirmationsRequired : Value) : state :=
  {| _transaction := transaction;
     _stage := JStr "unsubmitted";
     _receipt := JNull;
     _confirmationsRequired := confirmationsRequired;
     _state := JUndefined;
     emitted := [] |}.

(** The accessors. *)
Definition transaction (l : state) : Value := _transaction l.
Definition stage (l : state) : Value := _stage l.
Definition receipt (l : state) : Value := _receipt l.
Definition confirmationsRequired (l : state) : Value :=
  _confirmationsRequired l.

(** [this._state = v], [this._receipt = v] and [this.emit(name, ...args)]. *)
Definition write_state (v : Value) (l : state) : state :=
  {| _transaction := _transaction l; _stage := _stage l;
     _receipt := _receipt l;
     _confirmationsRequired := _confirmationsRequired l;
     _state := v; emitted := emitted l |}.

Definition write_receipt (v : Value) (l : state) : state :=
  {| _transaction := _transaction l; _stage := _stage l;
     _receipt := v;
     _confirmationsRequired := _confirmationsRequired l;
     _state := _state l; emitted := emitted l |}.

Definition record_event (name : string) (args : list Value) (l : state)
  : state :=
  {| _transaction := _transaction l; _stage := _stage l;
     _receipt := _receipt l;
     _confirmationsRequired := _confirmationsRequired l;
     _state := _state l; emitted := emitted l ++ [(name, args)] |}.

Definition emit (name : string) (args : list Value) : M state unit :=
  modify (record_event name args).

Definition transition_message (current desiredState : Value)
  (allowed : string) : string :=
  "Invalid transaction lifecycle state transition! Current state: "
  ++ dquote ++ ToString current ++ "," ++ dquote ++ " desired state: "
  ++ dquote ++ ToString desiredState ++ "," ++ dquote ++ allowed.

(** [_checkPrecondition(allowedStates, desiredState)]. The first test reads
    the identifier [states], which nothing declares, as soon as
    [allowedStates] is an array; the second compares the two arguments with
    each other. *)
Definition _checkPrecondition (allowedStates desiredState : Value)
  : M state unit :=
  current <- gets _state ;;
  outside <- (if isArray allowedStates
              then states <- lift (unbound "states") ;;
                   ret (negb (existsb (strict_eq current) states))
              else ret false) ;;
  if (outside : bool) then
    throw (JErr KError
             (transition_message current desiredState
                (" states allowed: " ++ dquote
                 ++ match allowedStates with
                    | JArr elems => array_join (dquote ++ "," ++ dquote) elems
                    | _ => EmptyString
                    end ++ dquote)))
  else if negb (strict_eq allowedStates desiredState) then
    throw (JErr KError
             (transition_message current desiredState
                (" allowed state: " ++ ToString allowedStates)))
  else ret tt.

Definition setSubmitted : M state unit :=
  _checkPrecondition (JStr "unsubmitted") (JStr "submitted") ;;
  modify (write_state (JStr "submitted")) ;;
  emit "submitted" [].

Definition setFailedToSubmit (err : Value) : M state unit :=
  _checkPrecondition (JStr "unsubmitted") (JStr "failedToSubmit") ;;
  modify (write_state (JStr "failedToSubmit")) ;;
  emit "failedToSubmit" [err] ;;
  emit "done" [].

Definition setMined (receipt : Value) : M state unit :=
  _checkPrecondition (JStr "submitted") (JStr "mined") ;;
  modify (write_state (JStr "mined")) ;;
  modify (write_receipt receipt) ;;
  emit "mined" [receipt].

Definition setConfirmed : M state unit :=
  _checkPrecondition (JStr "mined") (JStr "confirmed") ;;
  modify (write_state (JStr "confirmed")) ;;
  r <- gets _receipt ;;
  emit "confirmed" [r] ;;
  emit "done" [].

Definition setConfirmedWithError (err : Value) : M state unit :=
  _checkPrecondition (JStr "mined") (JStr "confirmedWithError") ;;
  modify (write_state (JStr "confirmedWithError")) ;;
  emit "confirmedWithError" [err] ;;
  emit "done" [].

Definition setReorgedOut : M state unit :=
  _checkPrecondition (JStr "mined") (JStr "reorgedOut") ;;
  modify (write_state (JStr "reorgedOut")) ;;
  emit "reorgedOut" [] ;;
  emit "done" [].

(** The six transition methods as data, with the arguments the method
    declares. *)
Inductive operation :=
| SetSubmitted
| SetFailedToSubmit (err : Value)
| SetMined (receipt : Value)
| SetConfirmed
| SetConfirmedWithError (err : Value)
| SetReorgedOut.

Definition call (op : operation) : M state unit :=
  match op with
  | SetSubmitted => setSubmitted
  | SetFailedToSubmit err => setFailedToSubmit err
  | SetMined r => setMined r
  | SetConfirmed => setConfirmed
  | SetConfirmedWithError err => setConfirmedWithError err
  | SetReorgedOut => setReorgedOut
  end.

(** A caller that invokes the methods one after the other on the same
    object and goes on after an exception. *)
Fixpoint run (ops : list operation) (l : state) : state :=
  match ops with
  | [] => l
  | op :: rest => run rest (snd (call op l))
  end.

(** The transition table of the lifecycle: the stage an operation needs and
    the stage it is meant to reach. *)
Definition required_stage (op : operation) : string :=
  match op with
  | SetSubmitted | SetFailedToSubmit _ => "unsubmitted"
  | SetMined _ => "submitted"
  | SetConfirmed | SetConfirmedWithError _ | SetReorgedOut => "mined"
  end.

Definition new_stage (op : operation) : string :=
  match op with
  | SetSubmitted => "submitted"
  | SetFailedToSubmit _ => "failedToSubmit"
  | SetMined _ => "mined"
  | SetConfirmed => "confirmed"
  | SetConfirmedWithError _ => "confirmedWithError"
  | SetReorgedOut => "reorgedOut"
  end.

Definition terminal (stage_name : string) : bool :=
  existsb (String.eqb stage_name)
    ["failedToSubmit"; "confirmed"; "confirmedWithError"; "reorgedOut"].

(** The stages in which a receipt exists. *)
Definition has_receipt_stage (v : Value) : bool :=
  match v with
  | JStr s => existsb (String.eqb s)
                ["mined"; "confirmed"; "confirmedWithError"; "reorgedOut"]
  | _ => false
  end.

(** [l.name] read from outside the class: the own fields, the accessors of
    the class, the bookkeeping fields of an [EventEmitter] without
    listeners, and function objects for the methods of the class and of
    [EventEmitter]. *)
Definition methods : list string :=
  [ "setSubmitted"; "setFailedToSubmit"; "setMined"; "setConfirmed";
    "setConfirmedWithError"; "setReorgedOut"; "_checkPrecondition";
    "emit"; "on"; "once"; "off"; "addListener"; "removeListener";
    "removeAllListeners"; "prependListener"; "prependOnceListener";
    "listeners"; "rawListeners"; "listenerCount"; "eventNames";
    "setMaxListeners"; "getMaxListeners" ].

Definition member (l : state) (name : string) : Value :=
  if name =? "_transaction" then _transaction l
  else if name =? "transaction" then transaction l
  else if name =? "_stage" then _stage l
  else if name =? "stage" then stage l
  else if name =? "_receipt" then _receipt l
  else if name =? "receipt" then receipt l
  else if name =? "_confirmationsRequired" then _confirmationsRequired l
  else if name =? "confirmationsRequired" then confirmationsRequired l
  else if name =? "_state" then _state l
  else if name =? "_events" then JObj []
  else if name =? "_eventsCount" then JNum 0
  else inherited (methods ++ Object_prototype) name.

End TransactionLifecycle.

(** ** transactionManager.js *)

Module TransactionManager.

(** *** The module-level helpers *)

(** [_isSignedTransaction(tx)]. *)
Definition _isSignedTransaction (tx : Value) : Completion bool :=
  let* v := get tx "v" in
  let* triple := (if truthy v
                  then let* r := get tx "r" in
                       if truthy r then get tx "s" else Normal r
                  else Normal v) in
  if truthy triple then Normal true
  else let* raw := get tx "rawTransaction" in
       Normal (truthy raw).

(** [wallet = v] where [wallet] was declared with [const]. *)
Definition assign_const (name : string) (v : Value) : Completion Value :=
  Throw (JErr KTypeError "Assignment to constant variable.").

(** The branch [_getWallet(from, accounts)] takes and the value of the
    right-hand side it evaluates there. *)
Definition _getWallet_selected (from accounts : Value) : Completion Value :=
  let* collection := get accounts "wallet" in
  let* indexed := get_computed collection from in
  if truthy indexed then
    let* collection := get accounts "wallet" in
    get_computed collection from
  else
    let* address := get from "address" in
    let* account := (if truthy address then get from "privateKey"
                     else Normal address) in
    if truthy account then Normal from
    else
      let* collection := get accounts "wallet" in
      let* key := toLowerCase from in
      get_computed collection key.

(** [_getWallet(from, accounts)]: [const wallet = null], then one of the
    three assignments to it, then [return wallet]. *)
Definition _getWallet (from accounts : Value) : Completion Value :=
  let* selected := _getWallet_selected from accounts in
  let* wallet := assign_const "wallet" selected in
  Normal wallet.

(** *** Object helpers of [_signIfNecessary] *)

Fixpoint remove (key : string) (props : list (string * Value))
  : list (string * Value) :=
  match props with
  | [] => []
  | (k, v) :: rest =>
      if k =? key then remove key rest else (k, v) :: remove key rest
  end.

(** [o[key] = v] on the properties of an object. *)
Fixpoint assign (key : string) (v : Value) (props : list (string * Value))
  : list (string * Value) :=
  match props with
  | [] => [(key, v)]
  | (k, x) :: rest =>
      if k =? key then (k, v) :: rest else (k, x) :: assign key v rest
  end.

Fixpoint indexed (i : nat) (values : list Value) : list (string * Value) :=
  match values with
  | [] => []
  | v :: rest => (string_of_Z (Z.of_nat i), v) :: indexed (S i) rest
  end.

Fixpoint characters (s : string) : list Value :=
  match s with
  | EmptyString => []
  | String c rest => JStr (String c EmptyString) :: characters rest
  end.

(** [{... v}]: the own enumerable properties of [v], which are the indexed
    elements for an array and the indexed characters for a string, and
    none for the other primitives. *)
Definition spread (v : Value) : list (string * Value) :=
  match v with
  | JObj props => props
  | JArr elems => indexed 0 elems
  | JStr s => indexed 0 (characters s)
  | _ => []
  end.

(** [if (method[name] && !txOptions[option]) txOptions[option] = method[name]],
    for the three pairs of names [_signIfNecessary] uses. *)
Definition default_option (method : Value) (name option : string)
  (txOptions : list (string * Value)) : Completion (list (string * Value)) :=
  let* preset := get method name in
  if andb (truthy preset) (negb (truthy (field txOptions option)))
  then Normal (assign option preset txOptions)
  else Normal txOptions.

(** The guard of [_signIfNecessary]: no method, no accounts, no wallet or an
    empty wallet. *)
Definition no_wallet (method : Value) : Completion bool :=
  if negb (truthy method) then Normal true else
  let* accounts := get method "accounts" in
  if negb (truthy accounts) then Normal true else
  let* wallet := get accounts "wallet" in
  if negb (truthy wallet) then Normal true else
  let* size := get wallet "length" in
  Normal (negb (truthy size)).

Section Collaborators.

(** [method.accounts.signTransaction(txOptions, privateKey)], awaited: the
    signed transaction or the rejection. *)
Variable signTransaction : Value -> Value -> Completion Value.

(** [_signIfNecessary(transaction, method)]. Past the guard the body reads
    [tx] and [_] (for [_.isObject]), which nothing declares. *)
Definition _signIfNecessary (transaction method : Value) : Completion Value :=
  let* skip := no_wallet method in
  if skip then Normal transaction
  else
    let* tx := unbound "tx" in
    let* signed := _isSignedTransaction tx in
    if negb signed then
      let* isObject := unbound "_" in
      let* from := (if (isObject : Value -> bool) tx then get tx "from"
                    else Normal JNull) in
      let* accounts := get method "accounts" in
      let* wallet := _getWallet from accounts in
      let* privateKey := (if truthy wallet then get wallet "privateKey"
                          else Normal wallet) in
      if negb (truthy privateKey) then Normal transaction
      else
        let txOptions := remove "from" (spread transaction) in
        let* txOptions := default_option method "defaultChain" "chain"
                            txOptions in
        let* txOptions := default_option method "defaultHardfork" "hardfork"
                            txOptions in
        let* txOptions := default_option method "defaultCommon" "common"
                            txOptions in
        let* key := get wallet "privateKey" in
        signTransaction (JObj txOptions) key
    else Normal JUndefined.

(** *** The manager *)

(** One RPC request and the collaborator that answers it: the pair
    [(err, result)] its callback is called with. *)
Record request := mkRequest {
  method : string;
  params : list Value
}.

Variable requestManager : request -> Value * Value.

(** What a call to [send] works on: the requests handed to the request
    manager so far, oldest first, and the local variable [lifecycle]
    ([None] while it holds [null]). *)
Record world := mkWorld {
  sent : list request;
  lifecycle : option TransactionLifecycle.state
}.

Definition record_request (r : request) (w : world) : world :=
  {| sent := sent w ++ [r]; lifecycle := lifecycle w |}.

Definition bind_lifecycle (l : option TransactionLifecycle.state)
  (w : world) : world :=
  {| sent := sent w; lifecycle := l |}.

(** A method call on the object [lifecycle] holds. *)
Definition on_lifecycle {A} (c : M TransactionLifecycle.state A)
  : M world A :=
  fun w =>
    match lifecycle w with
    | None => (Throw (JErr KTypeError "Cannot read properties of null"), w)
    | Some l => let (r, l') := c l in (r, bind_lifecycle (Some l') w)
    end.

(** The method [_submitTransaction] picks for its parameters. *)
Definition rpc_method (params : list Value) : string :=
  if is_string (nth 0 params JUndefined) then "eth_sendRawTransaction"
  else "eth_sendTransaction".

(** [_submitTransaction(params)], awaited. *)
Definition _submitTransaction (params : list Value) : M world Value :=
  let method := rpc_method params in
  let r := {| method := method; params := params |} in
  modify (record_request r) ;;
  let (err, result) := requestManager r in
  if truthy err then throw err else ret result.

(** The parameters [send] builds in its two branches. *)
Definition signed_params (signedTransaction : Value)
  : Completion (list Value) :=
  let* raw := get signedTransaction "rawTransaction" in
  Normal [raw].

Definition unsigned_params (transaction : Value) : Completion (list Value) :=
  let* data := get transaction "data" in
  let* from := get transaction "from" in
  let* gas := get transaction "gas" in
  let* gasPrice := get transaction "gasPrice" in
  let* to := get transaction "to" in
  Normal [JObj [("data", data); ("from", from); ("gas", gas);
                ("gasPrice", gasPrice); ("to", to)]].

(** [new TransactionLifecycle(...)] inside this module: the module binds the
    class to the name [TrasactionLifecycle], so the name in the [new]
    expression is a free identifier, read before the arguments. *)
Definition new_TransactionLifecycle (arguments : Completion (Value * Value))
  : M world unit :=
  class <- lift (unbound "TransactionLifecycle") ;;
  args <- lift arguments ;;
  modify (bind_lifecycle
            (Some ((class : Value -> Value -> TransactionLifecycle.state)
                     (fst args) (snd args)))).

(** The [try]/[catch] of [send]: submit, then report to the lifecycle. *)
Definition submit_and_report (params : list Value) : M world unit :=
  try_catch
    (transactionHash <- _submitTransaction params ;;
     on_lifecycle TransactionLifecycle.setSubmitted)
    (fun err => on_lifecycle (TransactionLifecycle.setFailedToSubmit err)).

(** [send(transaction, method)]: [Normal v] is the promise resolved with
    [v], [Throw e] the promise rejected with [e]. The body has no [return]. *)
Definition send (transaction method : Value) : M world Value :=
  signedTransaction <- lift (_signIfNecessary transaction method) ;;
  modify (bind_lifecycle None) ;;
  signed <- lift (_isSignedTransaction signedTransaction) ;;
  params <- (if (signed : bool) then
               new_TransactionLifecycle
                 (let* blocks := get method "transactionConfirmationBlocks" in
                  Normal (signedTransaction, blocks)) ;;
               lift (signed_params signedTransaction)
             else
               new_TransactionLifecycle (Normal (transaction, JUndefined)) ;;
               lift (unsigned_params transaction)) ;;
  submit_and_report params ;;
  ret JUndefined.

End Collaborators.

(** *** The lifecycle event handlers *)

Import TransactionLifecycle.

Definition _handleSubmitted (transactionHash : Value) : M state unit :=
  ret tt.

Definition _handleFailedSubmission (err : Value) : M state unit := ret tt.

Definition _handleMined (receipt : Value) : M state unit :=
  blocks <- gets (fun l => member l "transactionConfirmationBlocks") ;;
  if negb (truthy blocks) then setConfirmed else ret tt.

Definition _handleConfirmed : M state unit := ret tt.

Definition _handleConfirmedWithError (err : Value) : M state unit := ret tt.

Definition _handleReorgedOut : M state unit := ret tt.

Inductive handler :=
| HandleSubmitted
| HandleFailedSubmission
| HandleMined
| HandleConfirmed
| HandleConfirmedWithError
| HandleReorgedOut.

(** [_initializeLifecycle(lifecycle)]: the listeners it registers, in
    order, each under the event name it is registered for. *)
Definition _initializeLifecycle : list (string * handler) :=
  [ ("submitted", HandleSubmitted);
    ("failedToSubmit", HandleFailedSubmission);
    ("mined", HandleMined);
    ("confirmed", HandleConfirmed);
    ("confirmedWithError", HandleConfirmedWithError);
    ("reorgedOut", HandleReorgedOut) ].

(** A registered handler called with the arguments of an event. *)
Definition invoke (h : handler) (args : list Value) : M state unit :=
  match h with
  | HandleSubmitted => _handleSubmitted (nth 0 args JUndefined)
  | HandleFailedSubmission => _handleFailedSubmission (nth 0 args JUndefined)
  | HandleMined => _handleMined (nth 0 args JUndefined)
  | HandleConfirmed => _handleConfirmed
  | HandleConfirmedWithError =>
      _handleConfirmedWithError (nth 0 args JUndefined)
  | HandleReorgedOut => _handleReorgedOut
  end.

Fixpoint invoke_all (hs : list handler) (args : list Value) : M state unit :=
  match hs with
  | [] => ret tt
  | h :: rest => invoke h args ;; invoke_all rest args
  end.

(** Everything the manager does for a lifecycle when an event of the given
    name reaches it: the handlers registered under that name, in order. *)
Definition on_event (name : string) (args : list Value) : M state unit :=
  invoke_all
    (map snd (filter (fun entry => fst entry =? name) _initializeLifecycle))
    args.

End TransactionManager.

(** ** The block tracker *)

Module BlockTracker.

(** The listeners the tracker puts on its subscription; the only one is
    [(block) => _this.emit("block", block)]. *)
Inductive listener := ForwardBlock.

(** The fields of a tracker. [_subscription] is [None] until
    [_initializeSubscription] assigns it, then the subscription with its
    listeners for ["data"]. [emitted] lists the tracker's own calls to
    [emit], oldest first. *)
Record state := mk {
  _requestManager : Value;
  _latestBlock : Value;
  _subscription : option (list listener);
  emitted : list (string * list Value)
}.

Definition constructor (requestManager : Value) : state :=
  {| _requestManager := requestManager;
     _latestBlock := JNull;
     _subscription := None;
     emitted := [] |}.

Definition record_event (name : string) (args : list Value) (t : state)
  : state :=
  {| _requestManager := _requestManager t;
     _latestBlock := _latestBlock t;
     _subscription := _subscription t;
     emitted := emitted t ++ [(name, args)] |}.

Definition emit (name : string) (args : list Value) : M state unit :=
  modify (record_event name args).

(** [this._subscription = subscribe(); this._subscription.on("data", f)]. *)
Definition subscribe_with (f : listener) (t : state) : state :=
  {| _requestManager := _requestManager t;
     _latestBlock := _latestBlock t;
     _subscription := Some [f];
     emitted := emitted t |}.

(** [_initializeSubscription()]. The argument of [new Subscriptions] reads
    [formatters.outputBlockFormatter], and nothing declares [formatters]. *)
Definition _initializeSubscription : M state unit :=
  formatters <- lift (unbound "formatters") ;;
  outputFormatter <- lift (get formatters "outputBlockFormatter") ;;
  modify (subscribe_with ForwardBlock).

Definition notify (f : listener) (block : Value) : M state unit :=
  match f with
  | ForwardBlock => emit "block" [block]
  end.

Fixpoint notify_all (fs : list listener) (block : Value) : M state unit :=
  match fs with
  | [] => ret tt
  | f :: rest => notify f block ;; notify_all rest block
  end.

(** The feed delivers one header: the subscription, if there is one, calls
    its ["data"] listeners with it. *)
Definition incoming (block : Value) : M state unit :=
  subscription <- gets _subscription ;;
  match subscription with
  | None => ret tt
  | Some fs => notify_all fs block
  end.

(** Headers delivered one after the other. *)
Fixpoint feed (blocks : list Value) (t : state) : state :=
  match blocks with
  | [] => t
  | b :: rest => feed rest (snd (incoming b t))
  end.

(** A block header with the three fields the tracker needs. *)
Definition header (number : Z) (hash parentHash : string) : Value :=
  JObj [("number", JNum number); ("hash", JStr hash);
        ("parentHash", JStr parentHash)].

End BlockTracker.

(** ** Properties and sample inputs *)

Import TransactionLifecycle.

(** A computation that leaves a projection of the lifecycle as it found
    it, whichever way it completes. *)
Definition preserves {A B} (proj : state -> B) (c : M state A) : Prop :=
  forall l, proj (snd (c l)) = proj l.

(** The statements of a transition method that follow its precondition
    check, and the arguments it passes with its stage event. *)
Definition after_check (op : operation) : M state unit :=
  match op with
  | SetSubmitted =>
      modify (write_state (JStr "submitted")) ;;
      emit "submitted" []
  | SetFailedToSubmit err =>
      modify (write_state (JStr "failedToSubmit")) ;;
      emit "failedToSubmit" [err] ;;
      emit "done" []
  | SetMined r =>
      modify (write_state (JStr "mined")) ;;
      modify (write_receipt r) ;;
      emit "mined" [r]
  | SetConfirmed =>
      modify (write_state (JStr "confirmed")) ;;
      r <- gets _receipt ;;
      emit "confirmed" [r] ;;
      emit "done" []
  | SetConfirmedWithError err =>
      modify (write_state (JStr "confirmedWithError")) ;;
      emit "confirmedWithError" [err] ;;
      emit "done" []
  | SetReorgedOut =>
      modify (write_state (JStr "reorgedOut")) ;;
      emit "reorgedOut" [] ;;
      emit "done" []
  end.

Definition payload (op : operation) (l : state) : list Value :=
  match op with
  | SetSubmitted | SetReorgedOut => []
  | SetFailedToSubmit err | SetConfirmedWithError err => [err]
  | SetMined r => [r]
  | SetConfirmed => [_receipt l]
  end.

Definition is_null (v : Value) : bool :=
  match v with JNull => true | _ => false end.

(** The receipt is non-null exactly in the stages that follow mining. *)
Definition receipt_invariant (l : state) : Prop :=
  negb (is_null (receipt l)) = has_receipt_stage (stage l).

Definition sample_transaction : Value :=
  JObj [("data", JStr "0x"); ("from", JStr "0xabc"); ("gas", JNum 21000);
        ("gasPrice", JNum 1); ("to", JStr "0xdef")].

Definition sample_receipt : Value :=
  JObj [("blockHash", JStr "0xb1"); ("blockNumber", JNum 10);
        ("status", JBool true)].

(** A lifecycle object as it would stand after mining: [_state] and
    [_receipt] written, one ["submitted"] and one ["mined"] event behind
    it. *)
Definition mined_lifecycle : state :=
  {| _transaction := sample_transaction;
     _stage := JStr "unsubmitted";
     _receipt := sample_receipt;
     _confirmationsRequired := JNum 3;
     _state := JStr "mined";
     emitted := [("submitted", []); ("mined", [sample_receipt])] |}.

(** A reorg notification whose detached blocks contain the block of
    [sample_receipt]: ancestor, detached, attached. *)
Definition sample_reorg : list Value :=
  [ BlockTracker.header 9 "0xa9" "0xa8";
    JArr [BlockTracker.header 10 "0xb1" "0xa9"];
    JArr [BlockTracker.header 10 "0xc1" "0xa9"] ].

Definition key1 : Value :=
  JObj [("address", JStr "0xABC"); ("privateKey", JStr "0x01")].

(** [method.accounts] with the wallet collection given. *)
Definition accounts_with (collection : list (string * Value)) : Value :=
  JObj [("wallet", JObj collection)].

(** Whether a completion is a normal one. *)
Definition normal {A} (c : Completion A) : bool :=
  match c with Normal _ => true | Throw _ => false end.

(** The [TypeError] of a property read on [undefined] or [null]. *)
Definition cannot_read (v : Value) (key : string) : Value :=
  JErr KTypeError
    ("Cannot read properties of " ++ ToString v
     ++ " (reading '" ++ key ++ "')").

(** What can happen to a tracker from outside: a call of
    [_initializeSubscription], whose exception the caller survives, or a
    header coming in from the feed. *)
Inductive tracker_action :=
| Initialize
| Deliver (block : Value).

Definition tracker_step (a : tracker_action) (t : BlockTracker.state)
  : BlockTracker.state :=
  match a with
  | Initialize => snd (BlockTracker._initializeSubscription t)
  | Deliver block => snd (BlockTracker.incoming block t)
  end.

Fixpoint tracker_run (actions : list tracker_action)
  (t : BlockTracker.state) : BlockTracker.state :=
  match actions with
  | [] => t
  | a :: rest => tracker_run rest (tracker_step a t)
  end.

(** ** The lifecycle *)

Section Preservation.

Context {B : Type} (proj : state -> B).

Lemma preserves_ret {A} (a : A) : preserves proj (ret a).
Proof. intro l; reflexivity. Qed.

Lemma preserves_throw {A} (e : Value) : preserves proj (@throw state A e).
Proof. intro l; reflexivity. Qed.

Lemma preserves_gets {A} (f : state -> A) : preserves proj (gets f).
Proof. intro l; reflexivity. Qed.

Lemma preserves_lift {A} (c : Completion A) : preserves proj (lift c).
Proof. intro l; reflexivity. Qed.

Lemma preserves_modify (f : state -> state) :
  (forall l, proj (f l) = proj l) -> preserves proj (modify f).
Proof. intros Hf l; cbn; apply Hf. Qed.

Lemma preserves_bind {A C} (c : M state A) (k : A -> M state C) :
  preserves proj c -> (forall a, preserves proj (k a)) ->
  preserves proj (bind c k).
Proof.
  intros Hc Hk l. unfold bind.
  specialize (Hc l). destruct (c l) as [[a | e] l']; cbn in *.
  - now rewrite Hk.
  - exact Hc.
Qed.

(** The precondition check writes nothing at all. *)
Lemma checkPrecondition_preserves (allowedStates desiredState : Value) :
  preserves proj (_checkPrecondition allowedStates desiredState).
Proof.
  unfold _checkPrecondition.
  apply preserves_bind; [apply preserves_gets | intro current].
  apply preserves_bind.
  - destruct (isArray allowedStates).
    + apply preserves_bind; [apply preserves_lift | intro; apply preserves_ret].
    + apply preserves_ret.
  - intros [|].
    + apply preserves_throw.
    + destruct (negb _); [apply preserves_throw | apply preserves_ret].
Qed.

End Preservation.

Ltac preserve_steps :=
  repeat first
    [ apply checkPrecondition_preserves
    | apply preserves_bind; [| intro]
    | apply preserves_gets
    | apply preserves_modify; intro; reflexivity ].

(** No transition method writes the field the [stage] accessor reads: the
    writes go to [_state], [_receipt] and the event log. *)
Lemma call_preserves_stage (op : operation) : preserves _stage (call op).
Proof.
  destruct op; cbn [call];
    unfold setSubmitted, setFailedToSubmit, setMined, setConfirmed,
      setConfirmedWithError, setReorgedOut, emit;
    preserve_steps.
Qed.

Lemma run_preserves_stage (ops : list operation) (l : state) :
  stage (run ops l) = stage l.
Proof.
  revert l; induction ops as [| op ops IH]; intro l; cbn [run].
  - reflexivity.
  - rewrite IH. apply (call_preserves_stage op l).
Qed.

(** Every transition method throws in its precondition check, on every
    lifecycle, and leaves the object as it found it. *)
Lemma call_throws (op : operation) (l : state) :
  call op l =
    (Throw (JErr KError
              (transition_message (_state l) (JStr (new_stage op))
                 (" allowed state: " ++ required_stage op))), l).
Proof. destruct op; reflexivity. Qed.

(** Each method is its check followed by [after_check]; the check is given
    the stage the table requires and the stage the table names as new. *)
Lemma call_check_then_rest (op : operation) :
  call op =
    (_checkPrecondition (JStr (required_stage op)) (JStr (new_stage op)) ;;
     after_check op).
Proof. destruct op; reflexivity. Qed.

(** Past the check, a method writes the new stage to [_state] and emits the
    event named after it, followed by ["done"] exactly for the terminal
    stages. *)
Lemma after_check_effects (op : operation) (l : state) :
  fst (after_check op l) = Normal tt /\
  _state (snd (after_check op l)) = JStr (new_stage op) /\
  emitted (snd (after_check op l)) =
    (emitted l ++
     (new_stage op, payload op l)
       :: (if terminal (new_stage op) then [("done", [])] else []))%list.
Proof.
  destruct op; cbn; repeat split; rewrite <- ?app_assoc; reflexivity.
Qed.

Lemma run_unchanged (ops : list operation) (l : state) : run ops l = l.
Proof.
  revert l; induction ops as [| op ops IH]; intro l; cbn [run].
  - reflexivity.
  - rewrite call_throws; cbn [snd]; apply IH.
Qed.

Lemma receipt_invariant_iff (l : state) :
  receipt_invariant l <->
  (receipt l <> JNull <-> has_receipt_stage (stage l) = true).
Proof.
  unfold receipt_invariant.
  destruct (receipt l); destruct (has_receipt_stage (stage l)); cbn;
    intuition (congruence || discriminate).
Qed.

(** C1. A lifecycle fresh from the constructor is in the stage
    [setSubmitted] requires, ["unsubmitted"], yet [setSubmitted] throws:
    the check compares the allowed stage with the desired stage, which
    differ, and never looks at the stage of the object. The error names the
    current state as [undefined], and the object is left as it was; the
    same holds for every transition method on every lifecycle. *)
Theorem setSubmitted_throws_on_fresh_lifecycle :
  forall transaction confirmationsRequired,
    let l := constructor transaction confirmationsRequired in
    stage l = JStr (required_stage SetSubmitted) /\
    setSubmitted l =
      (Throw (JErr KError
                ("Invalid transaction lifecycle state transition! "
                 ++ "Current state: " ++ dquote ++ "undefined," ++ dquote
                 ++ " desired state: " ++ dquote ++ "submitted," ++ dquote
                 ++ " allowed state: unsubmitted")), l) /\
    forall op l', fst (call op l') <> Normal tt /\ snd (call op l') = l'.
Proof.
  intros transaction confirmationsRequired l.
  split; [reflexivity | split; [reflexivity |]].
  intros op l'. rewrite call_throws. split; [discriminate | reflexivity].
Qed.

(** C4. On a fresh lifecycle [setFailedToSubmit], whose target stage is
    terminal and whose required stage is the current one, throws before it
    emits anything: neither ["failedToSubmit"] nor ["done"] is emitted. No
    sequence of transition methods makes a lifecycle emit any event, so no
    ["done"] ever fires. *)
Theorem no_transition_emits_an_event :
  forall transaction confirmationsRequired err ops,
    let l := constructor transaction confirmationsRequired in
    stage l = JStr (required_stage (SetFailedToSubmit err)) /\
    terminal (new_stage (SetFailedToSubmit err)) = true /\
    fst (setFailedToSubmit err l) <> Normal tt /\
    emitted (snd (setFailedToSubmit err l)) = [] /\
    emitted (run ops l) = [].
Proof.
  intros transaction confirmationsRequired err ops l.
  repeat split; try reflexivity.
  - discriminate.
  - rewrite run_unchanged. reflexivity.
Qed.


(** C10. The [stage] accessor reads [_stage], which only the constructor
    writes: every transition method leaves it as it is on every lifecycle,
    the write of a transition goes to [_state], and after any sequence of
    transition methods a new lifecycle still reports ["unsubmitted"]. *)
Theorem stage_getter_stays_unsubmitted :
  forall transaction confirmationsRequired ops,
    stage (run ops (constructor transaction confirmationsRequired))
      = JStr "unsubmitted" /\
    (forall op l, stage (snd (call op l)) = stage l) /\
    (forall v l, stage (write_state v l) = stage l /\
                 _state (write_state v l) = v).
Proof.
  intros transaction confirmationsRequired ops.
  split; [| split].
  - rewrite run_preserves_stage. reflexivity.
  - intros op l. apply (call_preserves_stage op l).
  - intros v l. split; reflexivity.
Qed.

(** ** The manager *)

Import TransactionManager.

(** The mined handler reads a property the lifecycle does not have, so it
    calls [setConfirmed] whatever the lifecycle requires. *)
Lemma handleMined_is_setConfirmed (receipt : Value) (l : state) :
  _handleMined receipt l = setConfirmed l.
Proof. reflexivity. Qed.

(** C2. With [confirmationsRequired = 3] the mined handler calls
    [setConfirmed] at once, before any block event: its result is the
    result of [setConfirmed], the error for the desired state
    ["confirmed"]. The handler tests [lifecycle.transactionConfirmationBlocks],
    which is [undefined] on every lifecycle. *)
Theorem handleMined_confirms_with_three_required :
  forall transaction receipt,
    let l := constructor transaction (JNum 3) in
    confirmationsRequired l = JNum 3 /\
    member l "transactionConfirmationBlocks" = JUndefined /\
    _handleMined receipt l = setConfirmed l /\
    fst (_handleMined receipt l) =
      Throw (JErr KError
               (transition_message JUndefined (JStr "confirmed")
                  " allowed state: mined")).
Proof. intros transaction receipt l. repeat split. Qed.

(** [send] rejects on every input and hands nothing to the request
    manager: past signing it reads the undeclared [TransactionLifecycle]. *)
Lemma send_always_rejects signTransaction requestManager
  (transaction method : Value) (w : world) :
  exists e,
    fst (send signTransaction requestManager transaction method w) = Throw e
    /\ sent (snd (send signTransaction requestManager transaction method w))
       = sent w.
Proof.
  unfold send, bind, lift.
  destruct (_signIfNecessary signTransaction transaction method)
    as [signedTransaction | e]; [| now exists e].
  cbn [modify].
  destruct (_isSignedTransaction signedTransaction) as [[|] | e];
    cbn; eauto.
Qed.

(** Were a lifecycle in place, the [try]/[catch] of [send] would still end
    in an exception, whatever the request manager answers: [setSubmitted]
    throws, the [catch] takes that error for a submission failure, and
    [setFailedToSubmit] throws in turn. *)
Lemma submit_and_report_throws requestManager (params : list Value)
  (transaction confirmationsRequired : Value) :
  fst (submit_and_report requestManager params
         (mkWorld [] (Some (constructor transaction confirmationsRequired))))
  = Throw (JErr KError
             (transition_message JUndefined (JStr "failedToSubmit")
                " allowed state: unsubmitted")).
Proof.
  unfold submit_and_report, try_catch, _submitTransaction, bind, modify.
  destruct (requestManager _) as [err result].
  destruct (truthy err); reflexivity.
Qed.

(** C3. Sending a plain unsigned transaction without a signing context
    rejects with a ReferenceError before anything is submitted: no request
    is made and no lifecycle exists. [send] rejects on every input. *)
Theorem send_rejects_with_ReferenceError :
  forall signTransaction requestManager,
    send signTransaction requestManager sample_transaction JUndefined
      (mkWorld [] None)
    = (Throw (JErr KReferenceError "TransactionLifecycle is not defined"),
       mkWorld [] None) /\
    forall transaction method w,
      exists e,
        fst (send signTransaction requestManager transaction method w)
          = Throw e /\
        sent (snd (send signTransaction requestManager transaction method w))
          = sent w.
Proof.
  intros signTransaction requestManager. split; [reflexivity |].
  intros transaction method w. apply send_always_rejects.
Qed.

(** The manager registers no handler for a tracker's reorg event, and the
    handler it registers under ["reorgedOut"] is empty. *)
Lemma on_event_reorg (args : list Value) (l : state) :
  on_event "reorg" args l = (Normal tt, l).
Proof. reflexivity. Qed.

(** C5. A reorg whose detached blocks contain the block of the receipt
    reaches a lifecycle that has been mined and is not terminal: the
    manager does nothing, [_state] stays ["mined"] and no ["reorgedOut"]
    event is emitted, whereas a call to [setReorgedOut] is visible by its
    exception. On every lifecycle a reorg, and the ["reorgedOut"] handler,
    leave the object untouched. *)
Theorem reorg_leaves_mined_lifecycle :
  on_event "reorg" sample_reorg mined_lifecycle
    = (Normal tt, mined_lifecycle) /\
  _state mined_lifecycle = JStr "mined" /\
  get sample_receipt "blockHash" = Normal (JStr "0xb1") /\
  nth 1 sample_reorg JUndefined
    = JArr [BlockTracker.header 10 "0xb1" "0xa9"] /\
  fst (setReorgedOut mined_lifecycle) <> Normal tt /\
  forall args l,
    on_event "reorg" args l = (Normal tt, l) /\
    on_event "reorgedOut" args l = (Normal tt, l) /\
    invoke HandleReorgedOut args l = (Normal tt, l).
Proof.
  repeat split. discriminate.
Qed.

(** C8, counterexample. With the entry keyed ["0xABC"] and the designator
    ["0xabc"], wallet resolution does not return [key1]: the address rule
    looks up ["0xabc"], finds nothing, and the assignment to the constant
    [wallet] throws. *)
Lemma getWallet_misses_upper_case_key :
  _getWallet (JStr "0xabc") (accounts_with [("0xABC", key1)])
    <> Normal key1 /\
  _getWallet_selected (JStr "0xabc") (accounts_with [("0xABC", key1)])
    = Normal JUndefined.
Proof. split; [discriminate | reflexivity]. Qed.

(** C8, amended. The address rule lower-cases the designator and looks the
    result up as an exact key of the collection: the designator ["0xABC"]
    selects the entry keyed ["0xabc"], and the designator ["0xabc"] selects
    nothing from a collection whose entry is keyed ["0xABC"]. *)
Theorem getWallet_lowercases_designator_only :
  forall key,
    _getWallet_selected (JStr "0xABC") (accounts_with [("0xabc", key)])
      = Normal key /\
    _getWallet_selected (JStr "0xabc") (accounts_with [("0xABC", key)])
      = Normal JUndefined.
Proof. intro key. split; reflexivity. Qed.



(** ** The block tracker *)

Lemma notify_all_latestBlock (fs : list BlockTracker.listener)
  (block : Value) (t : BlockTracker.state) :
  BlockTracker._latestBlock (snd (BlockTracker.notify_all fs block t))
  = BlockTracker._latestBlock t.
Proof.
  revert t; induction fs as [| f fs IH]; intro t; cbn.
  - reflexivity.
  - destruct f. unfold bind; cbn. rewrite IH. reflexivity.
Qed.

(** No header changes [_latestBlock], with or without a subscription. *)
Lemma incoming_latestBlock (block : Value) (t : BlockTracker.state) :
  BlockTracker._latestBlock (snd (BlockTracker.incoming block t))
  = BlockTracker._latestBlock t.
Proof.
  unfold BlockTracker.incoming, bind, gets.
  destruct (BlockTracker._subscription t) as [fs |].
  - apply notify_all_latestBlock.
  - reflexivity.
Qed.

(** C6. The first header that reaches a new tracker changes nothing:
    [_latestBlock] stays [null] and no ["block"] event is emitted, since the
    constructor subscribes to nothing and [_initializeSubscription] throws
    before it subscribes. Where a subscription exists, the header is
    forwarded as a ["block"] event and [_latestBlock] is still left as it
    was. *)
Theorem first_header_leaves_latestBlock_null :
  forall requestManager,
    let t := BlockTracker.constructor requestManager in
    let h := BlockTracker.header 1 "0xa1" "0xa0" in
    BlockTracker.incoming h t = (Normal tt, t) /\
    BlockTracker._latestBlock (BlockTracker.feed [h] t) = JNull /\
    BlockTracker.emitted (BlockTracker.feed [h] t) = [] /\
    BlockTracker._initializeSubscription t
      = (Throw (JErr KReferenceError "formatters is not defined"), t) /\
    (let t' := BlockTracker.subscribe_with BlockTracker.ForwardBlock t in
     BlockTracker.emitted (BlockTracker.feed [h] t') = [("block", [h])] /\
     BlockTracker._latestBlock (BlockTracker.feed [h] t') = JNull) /\
    forall block t0,
      BlockTracker._latestBlock (snd (BlockTracker.incoming block t0))
      = BlockTracker._latestBlock t0.
Proof.
  intros requestManager t h.
  repeat split. apply incoming_latestBlock.
Qed.

(** ** Further properties of the lifecycle *)

(** X1. The precondition check never touches the lifecycle, and whether it
    passes does not depend on the lifecycle at all: it passes exactly when
    [allowedStates] is not an array and is strictly equal to
    [desiredState]. With an array it throws the ReferenceError for
    [states], whatever the array holds. *)
Theorem checkPrecondition_ignores_lifecycle :
  forall allowedStates desiredState elems l,
    snd (_checkPrecondition allowedStates desiredState l) = l /\
    normal (fst (_checkPrecondition allowedStates desiredState l))
      = andb (negb (isArray allowedStates))
             (strict_eq allowedStates desiredState) /\
    fst (_checkPrecondition (JArr elems) desiredState l)
      = Throw (JErr KReferenceError "states is not defined").
Proof.
  intros allowedStates desiredState elems l.
  split; [| split; [| reflexivity]].
  - apply (checkPrecondition_preserves (fun x => x)).
  - unfold _checkPrecondition, bind, gets, lift.
    destruct (isArray allowedStates); cbn; [reflexivity |].
    destruct (strict_eq allowedStates desiredState); reflexivity.
Qed.

(** X2. No transition method, and no statement behind its check, writes
    the transaction or the number of confirmations required: both
    accessors return what the constructor was given, after any sequence of
    calls. *)
Theorem transaction_and_confirmations_fixed :
  forall ops op l,
    transaction (run ops l) = transaction l /\
    confirmationsRequired (run ops l) = confirmationsRequired l /\
    transaction (snd (after_check op l)) = transaction l /\
    confirmationsRequired (snd (after_check op l)) = confirmationsRequired l.
Proof.
  assert (Hcall : forall (B : Type) (proj : state -> B),
             (forall v l, proj (write_state v l) = proj l) ->
             (forall v l, proj (write_receipt v l) = proj l) ->
             (forall n a l, proj (record_event n a l) = proj l) ->
             forall op, preserves proj (call op) /\
                        preserves proj (after_check op)).
  { intros B proj Hs Hr He op.
    assert (Hrest : preserves proj (after_check op)).
    { destruct op; cbn [after_check]; unfold emit;
        repeat first
          [ apply preserves_bind; [| intro]
          | apply preserves_gets
          | apply preserves_modify; intro;
            first [apply Hs | apply Hr | apply He] ]. }
    split; [| exact Hrest].
    rewrite call_check_then_rest.
    apply preserves_bind;
      [apply checkPrecondition_preserves | intro; exact Hrest]. }
  assert (Hrun : forall (B : Type) (proj : state -> B),
             (forall op, preserves proj (call op)) ->
             forall ops l, proj (run ops l) = proj l).
  { intros B proj Hp ops.
    induction ops as [| op ops IH]; intro l; cbn [run].
    - reflexivity.
    - rewrite IH. apply Hp. }
  intros ops op l.
  repeat split.
  - apply (Hrun _ _transaction); intro op'.
    apply Hcall; intros; reflexivity.
  - apply (Hrun _ _confirmationsRequired); intro op'.
    apply Hcall; intros; reflexivity.
  - apply (Hcall _ _transaction); intros; reflexivity.
  - apply (Hcall _ _confirmationsRequired); intros; reflexivity.
Qed.

(** X3. The statements of [setMined] and [setConfirmed] behind their
    checks compose: the receipt [setMined] stores is the one
    [setConfirmed] passes with ["confirmed"], ["done"] comes last, [_state]
    ends as ["confirmed"], and the [stage] accessor has not moved. *)
Theorem mined_then_confirmed_statements :
  forall r l,
    let l1 := snd (after_check (SetMined r) l) in
    let l2 := snd (after_check SetConfirmed l1) in
    emitted l2
      = (emitted l ++
         [("mined", [r]); ("confirmed", [r]); ("done", [])])%list /\
    receipt l2 = r /\
    _state l2 = JStr "confirmed" /\
    stage l2 = stage l.
Proof.
  intros r l l1 l2. subst l1 l2. cbn.
  rewrite <- !app_assoc. repeat split.
Qed.

(** X4. The statements of [setMined] behind its check store the receipt
    and write [_state], not [_stage]: run on a lifecycle whose [stage]
    accessor names a stage without receipt, with a receipt that is not
    [null], they leave a lifecycle on which the receipt invariant fails. *)
Theorem setMined_statements_break_receipt_invariant :
  forall r l,
    is_null r = false ->
    has_receipt_stage (stage l) = false ->
    ~ receipt_invariant (snd (after_check (SetMined r) l)).
Proof.
  intros r l Hr Hs. unfold receipt_invariant. cbn.
  unfold stage in Hs. rewrite Hr, Hs. discriminate.
Qed.

Lemma setMined_statements_break_receipt_invariant_witness :
  ~ receipt_invariant
      (snd (after_check (SetMined sample_receipt)
              (constructor sample_transaction (JNum 0)))).
Proof.
  apply (setMined_statements_break_receipt_invariant sample_receipt
           (constructor sample_transaction (JNum 0)));
    reflexivity.
Defined.

(** ** Further properties of the manager *)

(** A decimal numeral reads back as a number, so a key that does not is no
    index of a string or an array. *)
Lemma string_of_Z_parses (n : Z) :
  NilZero.int_of_string (string_of_Z n) <> None.
Proof.
  unfold string_of_Z.
  destruct (Z.to_int n) as [d | d] eqn:Hd.
  - destruct d; try (rewrite NilZero.isi; discriminate).
    rewrite NilZero.isi_posnil. discriminate.
  - destruct d; try (rewrite NilZero.isi; discriminate).
    rewrite NilZero.isi_negnil. discriminate.
Qed.

Lemma index_of_key_not_number (key : string) (bound : nat) :
  NilZero.int_of_string key = None -> index_of_key key bound = None.
Proof.
  intro Hkey. induction bound as [| i IH]; cbn [index_of_key].
  - reflexivity.
  - destruct (String.eqb_spec (string_of_Z (Z.of_nat i)) key) as [E | _].
    + exfalso. apply (string_of_Z_parses (Z.of_nat i)). now rewrite E.
    + exact IH.
Qed.

(** A value that is not an ordinary object, [undefined] or [null] has none
    of the fields this module reads by name. *)
Lemma primitive_field_undefined (v : Value) (key : string) :
  match v with JUndefined | JNull | JObj _ => False | _ => True end ->
  (key =? "length") = false -> (key =? "message") = false ->
  (key =? "name") = false ->
  NilZero.int_of_string key = None ->
  get v key = Normal JUndefined.
Proof.
  intros Hv Hlen Hmsg Hname Hkey.
  destruct v; try contradiction; cbn [get];
    rewrite ?Hlen, ?Hmsg, ?Hname, ?index_of_key_not_number by exact Hkey;
    reflexivity.
Qed.

Lemma isSignedTransaction_object (props : list (string * Value)) :
  _isSignedTransaction (JObj props) =
    Normal (orb (andb (truthy (field props "v"))
                      (andb (truthy (field props "r"))
                            (truthy (field props "s"))))
                (truthy (field props "rawTransaction"))).
Proof.
  unfold _isSignedTransaction; cbn [get cbind]. fold (field props "v").
  fold (field props "r"). fold (field props "s").
  fold (field props "rawTransaction").
  destruct (truthy (field props "v")) eqn:Hv; cbn [cbind andb orb].
  - destruct (truthy (field props "r")) eqn:Hr; cbn [cbind andb orb].
    + destruct (truthy (field props "s")); reflexivity.
    + rewrite Hr. reflexivity.
  - rewrite Hv. reflexivity.
Qed.

Lemma isSignedTransaction_primitive (v : Value) :
  match v with JUndefined | JNull | JObj _ => False | _ => True end ->
  _isSignedTransaction v = Normal false.
Proof.
  intro Hv. unfold _isSignedTransaction.
  rewrite (primitive_field_undefined v "v") by (assumption || reflexivity).
  cbn [cbind truthy].
  rewrite (primitive_field_undefined v "rawTransaction")
    by (assumption || reflexivity).
  reflexivity.
Qed.

(** X5. [_isSignedTransaction] throws a TypeError on [undefined] and
    [null]; on an ordinary object it answers whether [v], [r] and [s] are
    all truthy or [rawTransaction] is truthy; on every other value it
    answers [false]. *)
Theorem isSignedTransaction_cases :
  forall tx,
    _isSignedTransaction tx =
      match tx with
      | JUndefined | JNull => Throw (cannot_read tx "v")
      | JObj props =>
          Normal (orb (andb (truthy (field props "v"))
                            (andb (truthy (field props "r"))
                                  (truthy (field props "s"))))
                      (truthy (field props "rawTransaction")))
      | _ => Normal false
      end.
Proof.
  intro tx.
  destruct tx;
    try reflexivity;
    try (apply isSignedTransaction_primitive; exact I).
  apply isSignedTransaction_object.
Qed.

(** X6. Classification and method choice can disagree: a transaction
    object that counts as signed through [v], [r] and [s] but whose
    [rawTransaction] is not a string yields, in the signed branch of
    [send], the single parameter [rawTransaction] as it is, and
    [_submitTransaction] sends that under [eth_sendTransaction]. *)
Theorem signed_triple_without_raw_payload :
  forall requestManager props w,
    truthy (field props "v") = true ->
    truthy (field props "r") = true ->
    truthy (field props "s") = true ->
    is_string (field props "rawTransaction") = false ->
    _isSignedTransaction (JObj props) = Normal true /\
    signed_params (JObj props) = Normal [field props "rawTransaction"] /\
    sent (snd (_submitTransaction requestManager
                 [field props "rawTransaction"] w))
      = (sent w ++
         [mkRequest "eth_sendTransaction"
            [field props "rawTransaction"]])%list.
Proof.
  intros requestManager props w Hv Hr Hs Hraw.
  split; [| split].
  - rewrite isSignedTransaction_object, Hv, Hr, Hs. reflexivity.
  - reflexivity.
  - unfold _submitTransaction, bind, modify, rpc_method.
    cbn [nth]. rewrite Hraw.
    destruct (requestManager _) as [err result].
    destruct (truthy err); reflexivity.
Qed.

Lemma signed_triple_without_raw_payload_witness :
  _isSignedTransaction
    (JObj [("v", JStr "0x1b"); ("r", JStr "0x01"); ("s", JStr "0x02")])
    = Normal true /\
  sent (snd (_submitTransaction (fun _ => (JNull, JStr "0x1"))
               [JUndefined] (mkWorld [] None)))
    = [mkRequest "eth_sendTransaction" [JUndefined]].
Proof.
  pose proof (signed_triple_without_raw_payload
                (fun _ => (JNull, JStr "0x1"))
                [("v", JStr "0x1b"); ("r", JStr "0x01"); ("s", JStr "0x02")]
                (mkWorld [] None)
                eq_refl eq_refl eq_refl eq_refl) as [H1 [_ H3]].
  split; [exact H1 | exact H3].
Defined.

(** X7. [_signIfNecessary] never signs: its result does not depend on the
    signing collaborator, and it is either the transaction it was given,
    unchanged, or an exception. *)
Theorem signIfNecessary_never_signs :
  forall sign1 sign2 transaction method,
    _signIfNecessary sign1 transaction method
      = _signIfNecessary sign2 transaction method /\
    (_signIfNecessary sign1 transaction method = Normal transaction \/
     normal (_signIfNecessary sign1 transaction method) = false).
Proof.
  intros sign1 sign2 transaction method.
  unfold _signIfNecessary.
  destruct (no_wallet method) as [[|] | e]; cbn; auto.
Qed.

(** X8. With a method whose [accounts.wallet] is an array,
    [_signIfNecessary] returns the transaction unchanged when the array is
    empty and throws the ReferenceError for [tx] as soon as it has an
    entry; without a method it returns the transaction unchanged. *)
Theorem signIfNecessary_by_wallet_size :
  forall sign transaction elems others,
    _signIfNecessary sign transaction
      (JObj (("accounts", JObj [("wallet", JArr elems)]) :: others))
    = match elems with
      | [] => Normal transaction
      | _ :: _ => Throw (JErr KReferenceError "tx is not defined")
      end /\
    _signIfNecessary sign transaction JUndefined = Normal transaction /\
    _signIfNecessary sign transaction JNull = Normal transaction.
Proof.
  intros sign transaction elems others.
  split; [| split; reflexivity].
  destruct elems; reflexivity.
Qed.

(** X9. [_getWallet] never returns: whatever the designator and the
    accounts, it ends in an exception, the TypeError of the assignment to
    its constant whenever the selection itself went through. *)
Theorem getWallet_never_returns :
  forall from accounts,
    normal (_getWallet from accounts) = false /\
    (normal (_getWallet_selected from accounts) = true ->
     _getWallet from accounts
       = Throw (JErr KTypeError "Assignment to constant variable.")).
Proof.
  intros from accounts. unfold _getWallet.
  destruct (_getWallet_selected from accounts); cbn; split;
    try reflexivity; try discriminate; intros; reflexivity.
Qed.

Lemma getWallet_never_returns_witness :
  _getWallet (JStr "0xABC") (accounts_with [("0xabc", key1)])
    = Throw (JErr KTypeError "Assignment to constant variable.").
Proof.
  apply (getWallet_never_returns (JStr "0xABC")
           (accounts_with [("0xabc", key1)])).
  reflexivity.
Defined.

(** A string designator has neither [address] nor [privateKey]. *)
Lemma string_has_no_address (s : string) :
  get (JStr s) "address" = Normal JUndefined.
Proof. apply primitive_field_undefined; (exact I || reflexivity). Qed.

Lemma get_wallet (collection : list (string * Value)) :
  get (accounts_with collection) "wallet" = Normal (JObj collection).
Proof. reflexivity. Qed.

Lemma get_object (props : list (string * Value)) (key : string) :
  get (JObj props) key = Normal (field props key).
Proof. reflexivity. Qed.

Ltac read_wallet :=
  unfold _getWallet_selected, get_computed;
  repeat progress (rewrite ?get_wallet, ?get_object; cbn [cbind ToString]).

Lemma selected_by_address (s : string) (collection : list (string * Value)) :
  truthy (field collection s) = false ->
  _getWallet_selected (JStr s) (accounts_with collection)
    = Normal (field collection (lower s)).
Proof.
  intro Hmiss. read_wallet. rewrite Hmiss.
  rewrite string_has_no_address. reflexivity.
Qed.

(** X10. The address rule. For a designator that is a string of ASCII
    characters under which the collection, an ordinary object, holds
    nothing truthy, the entry selected is what the collection reads under
    the lower-cased designator; so two such designators that differ only
    in case select the same entry. *)
Theorem getWallet_selects_by_lowercased_address :
  forall s1 s2 collection,
    ascii_only s1 = true ->
    ascii_only s2 = true ->
    truthy (field collection s1) = false ->
    truthy (field collection s2) = false ->
    lower s1 = lower s2 ->
    _getWallet_selected (JStr s1) (accounts_with collection)
      = Normal (field collection (lower s1)) /\
    _getWallet_selected (JStr s1) (accounts_with collection)
      = _getWallet_selected (JStr s2) (accounts_with collection).
Proof.
  intros s1 s2 collection _ _ H1 H2 Hcase.
  rewrite !selected_by_address by assumption.
  rewrite Hcase. split; reflexivity.
Qed.

Lemma getWallet_selects_by_lowercased_address_witness :
  _getWallet_selected (JStr "0xAbC") (accounts_with [("0xabc", key1)])
    = Normal key1 /\
  _getWallet_selected (JStr "0xAbC") (accounts_with [("0xabc", key1)])
    = _getWallet_selected (JStr "0xABC") (accounts_with [("0xabc", key1)]).
Proof.
  apply (getWallet_selects_by_lowercased_address "0xAbC" "0xABC"
           [("0xabc", key1)]);
    reflexivity.
Defined.

(** X11. The account rule. A designator that is an ordinary object
    without a [toString] of its own, with a truthy [address] and a truthy
    [privateKey], is selected as it is, unless the collection holds
    something truthy under the key such an object converts to,
    ["[object Object]"], which then wins. *)
Theorem getWallet_selects_account_object :
  forall account collection,
    lookup "toString" account = None ->
    truthy (field account "address") = true ->
    truthy (field account "privateKey") = true ->
    _getWallet_selected (JObj account) (accounts_with collection)
      = Normal (if truthy (field collection "[object Object]")
                then field collection "[object Object]"
                else JObj account).
Proof.
  intros account collection _ Ha Hk. read_wallet.
  destruct (truthy (field collection "[object Object]")); [reflexivity |].
  rewrite Ha. read_wallet. rewrite Hk. reflexivity.
Qed.

Lemma getWallet_selects_account_object_witness :
  _getWallet_selected key1 (accounts_with [("0xabc", JStr "other")])
    = Normal key1.
Proof.
  apply (getWallet_selects_account_object
           [("address", JStr "0xABC"); ("privateKey", JStr "0x01")]
           [("0xabc", JStr "other")]);
    reflexivity.
Defined.

(** X12. The missing designator. With [null] or [undefined] for [from], as
    [_signIfNecessary] passes for a transaction that is not an object, the
    selection throws the TypeError of reading [address], unless the
    collection holds something truthy under the key ["null"] or
    ["undefined"], which is then selected. *)
Theorem getWallet_without_designator :
  forall from collection,
    is_null from = true \/ from = JUndefined ->
    _getWallet_selected from (accounts_with collection)
      = if truthy (field collection (ToString from))
        then Normal (field collection (ToString from))
        else Throw (cannot_read from "address").
Proof.
  intros from collection Hfrom.
  assert (Hcase : from = JNull \/ from = JUndefined)
    by (destruct Hfrom as [H | H]; [destruct from; try discriminate | ];
        auto).
  destruct Hcase as [-> | ->]; read_wallet;
    match goal with
    | |- context [truthy ?v] => destruct (truthy v); reflexivity
    end.
Qed.

Lemma getWallet_without_designator_witness :
  _getWallet_selected JNull (accounts_with [("0xabc", key1)])
    = Throw (cannot_read JNull "address").
Proof.
  apply (getWallet_without_designator JNull [("0xabc", key1)]).
  left; reflexivity.
Defined.

(** X13. The [try]/[catch] of [send] with a lifecycle in place: one
    request goes out, and whatever the request manager answers the block
    ends in the exception of [setFailedToSubmit], which names the state
    the lifecycle had; the lifecycle is left as it was. Without a
    lifecycle the block ends in the TypeError of a call on [null]. *)
Theorem submit_and_report_outcome :
  forall requestManager params requests l,
    submit_and_report requestManager params (mkWorld requests (Some l))
      = (Throw (JErr KError
                  (transition_message (_state l) (JStr "failedToSubmit")
                     " allowed state: unsubmitted")),
         mkWorld (requests ++ [mkRequest (rpc_method params) params])
                 (Some l)) /\
    exists message,
      submit_and_report requestManager params (mkWorld requests None)
        = (Throw (JErr KTypeError message),
           mkWorld (requests ++ [mkRequest (rpc_method params) params])
                   None).
Proof.
  intros requestManager params requests l.
  unfold submit_and_report, try_catch, _submitTransaction, bind, modify.
  destruct (requestManager _) as [err result].
  split; [| eexists]; destruct (truthy err); reflexivity.
Qed.


(** X15. The handlers the manager registers never change the lifecycle
    they are bound to, whatever event reaches them and with whatever
    arguments; they complete normally for every event except ["mined"],
    whose handler lets the exception of [setConfirmed] out. *)
Theorem handlers_leave_lifecycle :
  forall name args l,
    snd (on_event name args l) = l /\
    normal (fst (on_event name args l)) = negb (name =? "mined").
Proof.
  intros name args l.
  unfold on_event, _initializeLifecycle.
  cbn [filter map fst snd].
  destruct (String.eqb_spec "mined" name) as [<- | Hmined].
  - split; reflexivity.
  - assert (Hneq : (name =? "mined") = false)
      by (apply String.eqb_neq; congruence).
    rewrite Hneq.
    destruct ("submitted" =? name), ("failedToSubmit" =? name),
      ("confirmed" =? name), ("confirmedWithError" =? name),
      ("reorgedOut" =? name); split; reflexivity.
Qed.

(** ** Further properties of the block tracker *)

Lemma notify_all_forward (block : Value) (t : BlockTracker.state) :
  BlockTracker.notify_all [BlockTracker.ForwardBlock] block t
    = (Normal tt, BlockTracker.record_event "block" [block] t).
Proof. reflexivity. Qed.

(** X16. With the tracker's listener on the subscription, every header
    that comes in is emitted as a ["block"] event, once, in the order of
    arrival, whatever its number and parent hash: nothing is dropped,
    reordered or checked against the previous header, and [_latestBlock]
    is never written. *)
Theorem feed_forwards_every_header :
  forall blocks t,
    BlockTracker._subscription t = Some [BlockTracker.ForwardBlock] ->
    BlockTracker.emitted (BlockTracker.feed blocks t)
      = (BlockTracker.emitted t
         ++ map (fun b => ("block", [b])) blocks)%list /\
    BlockTracker._latestBlock (BlockTracker.feed blocks t)
      = BlockTracker._latestBlock t.
Proof.
  induction blocks as [| b blocks IH]; intros t Hsub;
    cbn [BlockTracker.feed map].
  - rewrite app_nil_r. split; reflexivity.
  - assert (Hstep : snd (BlockTracker.incoming b t)
                    = BlockTracker.record_event "block" [b] t).
    { unfold BlockTracker.incoming, bind, gets. rewrite Hsub.
      rewrite notify_all_forward. reflexivity. }
    rewrite Hstep.
    destruct (IH (BlockTracker.record_event "block" [b] t) Hsub)
      as [He Hl].
    rewrite He, Hl. cbn [BlockTracker.record_event BlockTracker.emitted
                           BlockTracker._latestBlock].
    rewrite <- app_assoc. split; reflexivity.
Qed.

Lemma feed_forwards_every_header_witness :
  BlockTracker.emitted
    (BlockTracker.feed
       [BlockTracker.header 2 "0xa2" "0xa1";
        BlockTracker.header 1 "0xa1" "0xa0";
        BlockTracker.header 7 "0xf7" "0xee"]
       (BlockTracker.subscribe_with BlockTracker.ForwardBlock
          (BlockTracker.constructor JNull)))
  = [("block", [BlockTracker.header 2 "0xa2" "0xa1"]);
     ("block", [BlockTracker.header 1 "0xa1" "0xa0"]);
     ("block", [BlockTracker.header 7 "0xf7" "0xee"])].
Proof.
  apply (feed_forwards_every_header
           [BlockTracker.header 2 "0xa2" "0xa1";
            BlockTracker.header 1 "0xa1" "0xa0";
            BlockTracker.header 7 "0xf7" "0xee"]
           (BlockTracker.subscribe_with BlockTracker.ForwardBlock
              (BlockTracker.constructor JNull))).
  reflexivity.
Defined.

(** X17. A tracker never gets a subscription: starting from the
    constructor, any sequence of calls to [_initializeSubscription] and of
    incoming headers leaves the tracker exactly as constructed, with
    [_latestBlock] [null], no subscription and no event emitted. *)
Theorem tracker_stays_as_constructed :
  forall requestManager actions,
    tracker_run actions (BlockTracker.constructor requestManager)
      = BlockTracker.constructor requestManager.
Proof.
  intros requestManager actions.
  induction actions as [| a actions IH]; cbn [tracker_run].
  - reflexivity.
  - destruct a; cbn; exact IH.
Qed.
